(** * server.js: the three image-relay handlers

    A shallow embedding of [src/server.js]: the Express handlers for
    [POST /api/generate], [POST /api/reframe] and [POST /api/remix], with the
    outbound clients (axios, sharp, the Cloudinary uploader) as oracles over
    an abstract outside world, and a per-request log of the calls made. *)

From Stdlib Require Import List String ZArith Bool Lia.
From Stdlib Require Import Strings.Byte.
Import ListNotations.
Open Scope string_scope.
Open Scope list_scope.
Set Warnings "-register-all".

(** ** JavaScript values *)

Module JS.

(** The values the handlers touch: parsed JSON, buffers, and [undefined].
    Numbers are kept to the integers (JSON payloads of the services carry
    no fractional field that the handlers inspect). Objects are association
    lists; the first binding of a key is the property's value. *)
Inductive value : Type :=
| VUndefined
| VNull
| VBool (b : bool)
| VNum (n : Z)
| VStr (s : string)
| VBuf (bytes : list byte)
| VArr (items : list value)
| VObj (fields : list (string * value)).

(** ToBoolean. *)
Definition truthy (v : value) : bool :=
  match v with
  | VUndefined | VNull => false
  | VBool b => b
  | VNum n => negb (n =? 0)%Z
  | VStr s => negb (s =? "")
  | VBuf _ | VArr _ | VObj _ => true
  end.

Fixpoint lookup (k : string) (fields : list (string * value)) : value :=
  match fields with
  | [] => VUndefined
  | (k', v) :: rest => if k' =? k then v else lookup k rest
  end.

(** [v.k] for a named property, on a receiver known not to be nullish
    (every use below is guarded by a truthiness test, or goes through
    [member]). Primitives other than strings have none of the names read. *)
Definition prop (v : value) (k : string) : value :=
  match v with
  | VObj fields => lookup k fields
  | VArr items => if k =? "length" then VNum (Z.of_nat (List.length items)) else VUndefined
  | VBuf bytes => if k =? "length" then VNum (Z.of_nat (List.length bytes)) else VUndefined
  | VStr s => if k =? "length" then VNum (Z.of_nat (String.length s)) else VUndefined
  | _ => VUndefined
  end.

(** [v[0]]. *)
Definition elem0 (v : value) : value :=
  match v with
  | VArr items => match items with [] => VUndefined | x :: _ => x end
  | VObj fields => lookup "0" fields
  | VStr s => match s with EmptyString => VUndefined | String c _ => VStr (String c EmptyString) end
  | VBuf bytes => match bytes with [] => VUndefined | b :: _ => VNum (Z.of_N (Byte.to_N b)) end
  | _ => VUndefined
  end.

(** [v === 0]. *)
Definition is_zero (v : value) : bool :=
  match v with
  | VNum n => (n =? 0)%Z
  | _ => false
  end.

(** A destructuring default, [{ k = d } = obj]: used only when the property
    is [undefined]. *)
Definition default_to (v d : value) : value :=
  match v with
  | VUndefined => d
  | _ => v
  end.

(** What is thrown on these paths is always an object: an [Error] of axios,
    of sharp or of the runtime, whose [message] is a string (the empty one
    for an error built without), or the error object that the uploader's
    callback is given, whose [message] is a string or is not there. The
    catch blocks read nothing else of it. *)
Record error : Type := { message : option string }.

Definition Error (msg : string) : error := {| message := Some msg |}.

(** [msg || fallback] on an error's message. *)
Definition or_else (msg : option string) (fallback : string) : string :=
  match msg with
  | Some s => if s =? "" then fallback else s
  | None => fallback
  end.

(** A template literal's rendering of an environment variable. *)
Definition interpolate (v : option string) : string :=
  match v with
  | Some s => s
  | None => "undefined"
  end.

Inductive completion (A : Type) : Type :=
| Normal (a : A)
| Throw (e : error).
Arguments Normal {A} a.
Arguments Throw {A} e.

End JS.
Import JS.

(** ** Requests, responses and the call log *)

(** [req.body] after [express.json()] (or multer's text fields) and
    [req.file] as [multer.memoryStorage()] leaves it: absent, or a file
    whose [buffer] holds the uploaded bytes. *)
Record request : Type := {
  body : list (string * value);
  file : option (list byte)
}.

Record response : Type := {
  status : Z;
  json : value
}.

(** The options object given to [cloudinary.uploader.upload_stream]. *)
Record upload_options : Type := {
  folder : string;
  format : option string
}.

Definition headers : Type := list (string * string).

(** One entry per outbound call, with what it was given and how it
    completed. An axios response is represented by its [data]. *)
Inductive call : Type :=
| CPost (url : string) (data : value) (hs : headers) (res : completion value)
| CGet (url : value) (responseType : string) (res : completion value)
| CSharp (input : value) (res : completion value)
| CUpload (options : upload_options) (chunk : value) (res : completion value).

Definition call_result (c : call) : completion value :=
  match c with
  | CPost _ _ _ r | CGet _ _ r | CSharp _ r | CUpload _ _ r => r
  end.

(** The routing table: the three POST routes. *)
Inductive route : Type := Generate | Reframe | Remix.

Section Server.

(** The world outside the process (the generation service, the network,
    the media store), and the clients as transitions over it. *)
Variable W : Type.

Record clients : Type := {
  axios_post : W -> string -> value -> headers -> completion value * W;
  axios_get : W -> value -> string -> completion value * W;
  sharp_png : W -> value -> completion value * W;
  upload_stream : W -> upload_options -> value -> completion value * W;
  IDEOGRAM_API_KEY : option string
}.

Variable env : clients.

Record state : Type := {
  world : W;
  calls : list call;
  console : list (string * option string)
}.

Definition fresh (w : W) : state :=
  {| world := w; calls := []; console := [] |}.

(** *** The handler monad: state and exceptions *)

Definition M (A : Type) : Type := state -> completion A * state.

Definition ret {A : Type} (a : A) : M A := fun s => (Normal a, s).

Definition throw {A : Type} (e : error) : M A := fun s => (Throw e, s).

Definition bind {A B : Type} (m : M A) (f : A -> M B) : M B :=
  fun s =>
    match m s with
    | (Normal a, s') => f a s'
    | (Throw e, s') => (Throw e, s')
    end.

Notation "x <- m ;; k" := (bind m (fun x => k))
  (at level 100, m at next level, right associativity).

(** [try { m } catch (error) { h error }], for a handler whose catch block
    cannot itself throw. *)
Definition try_catch (m : M response) (h : error -> state -> response * state)
  : state -> response * state :=
  fun s =>
    match m s with
    | (Normal r, s') => (r, s')
    | (Throw e, s') => h e s'
    end.

Definition record (c : call) (w : W) (s : state) : state :=
  {| world := w; calls := calls s ++ [c]; console := console s |}.

Definition post (url : string) (data : value) (hs : headers) : M value :=
  fun s =>
    let '(r, w) := axios_post env (world s) url data hs in
    (r, record (CPost url data hs r) w s).

Definition get (url : value) (responseType : string) : M value :=
  fun s =>
    let '(r, w) := axios_get env (world s) url responseType in
    (r, record (CGet url responseType r) w s).

Definition sharp (input : value) : M value :=
  fun s =>
    let '(r, w) := sharp_png env (world s) input in
    (r, record (CSharp input r) w s).

(** [new Promise((resolve, reject) => upload_stream(options, (error, result)
    => { if (error) reject(error); else resolve(result); }).end(chunk))]. *)
Definition upload (options : upload_options) (chunk : value) : M value :=
  fun s =>
    let '(r, w) := upload_stream env (world s) options chunk in
    (r, record (CUpload options chunk r) w s).

(** [v.k] where nothing guards [v]: a TypeError on a nullish receiver. *)
Definition member (v : value) (k : string) : M value :=
  match v with
  | VUndefined =>
      throw (Error ("Cannot read properties of undefined (reading '" ++ k ++ "')")%string)
  | VNull =>
      throw (Error ("Cannot read properties of null (reading '" ++ k ++ "')")%string)
  | _ => ret (prop v k)
  end.

Definition console_error (label : string) (msg : option string)
  : state -> unit * state :=
  fun s =>
    (tt, {| world := world s; calls := calls s;
            console := console s ++ [(label, msg)] |}).

(** [res.status(code).json(payload)]; plain [res.json] is status 200. *)
Definition respond (code : Z) (payload : value) : M response :=
  ret {| status := code; json := payload |}.

Definition error_body (msg : string) : value := VObj [("error", VStr msg)].

Definition success_body (original_url cloudinary_url public_id : value) : value :=
  VObj [("success", VBool true);
        ("original_url", original_url);
        ("cloudinary_url", cloudinary_url);
        ("public_id", public_id)].

Definition ideogram_headers : headers :=
  [("Authorization", ("Bearer " ++ interpolate (IDEOGRAM_API_KEY env))%string);
   ("Content-Type", "application/json")].

(** The catch block shared in shape by the three handlers. *)
Definition on_error (label fallback : string) (e : error)
  : state -> response * state :=
  fun s =>
    let '(_, s') := console_error label (message e) s in
    ({| status := 500; json := error_body (or_else (message e) fallback) |}, s').

(** *** POST /api/generate *)

Definition generate (req : request) : state -> response * state :=
  try_catch
    (let prompt := lookup "prompt" (body req) in
     let aspect_ratio := default_to (lookup "aspect_ratio" (body req)) (VStr "1:1") in
     if negb (truthy prompt) then
       respond 400 (error_body "Prompt is required")
     else
       data <- post "https://api.ideogram.ai/generate"
                 (VObj [("prompt", prompt); ("aspect_ratio", aspect_ratio)])
                 ideogram_headers ;;
       if negb (truthy data) || negb (truthy (prop data "images"))
          || is_zero (prop (prop data "images") "length") then
         respond 500 (error_body "Failed to generate image")
       else
         let imageUrl := elem0 (prop data "images") in
         imageData <- get imageUrl "arraybuffer" ;;
         pngBuffer <- sharp imageData ;;
         uploadResult <- upload {| folder := "ideogram-images"; format := Some "png" |}
                           pngBuffer ;;
         secure_url <- member uploadResult "secure_url" ;;
         public_id <- member uploadResult "public_id" ;;
         respond 200 (success_body imageUrl secure_url public_id))
    (on_error "Error generating image:" "Failed to process image").

(** *** POST /api/reframe *)

Definition reframe (req : request) : state -> response * state :=
  try_catch
    (let image_url := lookup "image_url" (body req) in
     let aspect_ratio := default_to (lookup "aspect_ratio" (body req)) (VStr "1:1") in
     if negb (truthy image_url) then
       respond 400 (error_body "Image URL is required")
     else
       data <- post "https://api.ideogram.ai/reframe"
                 (VObj [("image_url", image_url); ("aspect_ratio", aspect_ratio)])
                 ideogram_headers ;;
       if negb (truthy data) || negb (truthy (prop data "image")) then
         respond 500 (error_body "Failed to reframe image")
       else
         let reframedImageUrl := prop data "image" in
         imageData <- get reframedImageUrl "arraybuffer" ;;
         pngBuffer <- sharp imageData ;;
         uploadResult <- upload {| folder := "ideogram-reframed"; format := Some "png" |}
                           pngBuffer ;;
         secure_url <- member uploadResult "secure_url" ;;
         public_id <- member uploadResult "public_id" ;;
         respond 200 (success_body reframedImageUrl secure_url public_id))
    (on_error "Error reframing image:" "Failed to reframe image").

(** *** POST /api/remix *)

(** The handler from [const { prompt, aspect_ratio = "1:1" } = req.body] on,
    that is once [imageUrl] has been assigned: the two branches that assign
    it continue here, the third returns before. *)
Definition remix_with (req : request) (imageUrl : value) : M response :=
  let prompt := lookup "prompt" (body req) in
  let aspect_ratio := default_to (lookup "aspect_ratio" (body req)) (VStr "1:1") in
  if negb (truthy prompt) then
    respond 400 (error_body "Prompt is required")
  else
    data <- post "https://api.ideogram.ai/remix"
              (VObj [("image_url", imageUrl); ("prompt", prompt);
                     ("aspect_ratio", aspect_ratio)])
              ideogram_headers ;;
    if negb (truthy data) || negb (truthy (prop data "images"))
       || is_zero (prop (prop data "images") "length") then
      respond 500 (error_body "Failed to remix image")
    else
      let remixedImageUrl := elem0 (prop data "images") in
      imageData <- get remixedImageUrl "arraybuffer" ;;
      pngBuffer <- sharp imageData ;;
      uploadResult <- upload {| folder := "ideogram-remixed"; format := Some "png" |}
                        pngBuffer ;;
      secure_url <- member uploadResult "secure_url" ;;
      public_id <- member uploadResult "public_id" ;;
      respond 200 (success_body remixedImageUrl secure_url public_id).

Definition remix (req : request) : state -> response * state :=
  try_catch
    (match file req with
     | Some buffer =>
         tempUpload <- upload {| folder := "temp-uploads"; format := None |}
                         (VBuf buffer) ;;
         imageUrl <- member tempUpload "secure_url" ;;
         remix_with req imageUrl
     | None =>
         if truthy (lookup "image_url" (body req)) then
           remix_with req (lookup "image_url" (body req))
         else
           respond 400 (error_body "Image (file or URL) is required")
     end)
    (on_error "Error remixing image:" "Failed to remix image").

(** *** Dispatch, one fresh log per request *)

Definition handle (r : route) : request -> state -> response * state :=
  match r with
  | Generate => generate
  | Reframe => reframe
  | Remix => remix
  end.

Definition serve (r : route) (req : request) (w : W) : response * state :=
  handle r req (fresh w).

End Server.

Arguments axios_post {W} c.
Arguments axios_get {W} c.
Arguments sharp_png {W} c.
Arguments upload_stream {W} c.
Arguments IDEOGRAM_API_KEY {W} c.
Arguments world {W} s.
Arguments calls {W} s.
Arguments console {W} s.
Arguments fresh {W} w.
Arguments serve {W} env r req w.
Arguments handle {W} env r req s.
Arguments generate {W} env req s.
Arguments reframe {W} env req s.
Arguments remix {W} env req s.
Arguments remix_with {W} env req imageUrl s.

(** ** Per-route constants of the source *)

Definition endpoint (r : route) : string :=
  match r with
  | Generate => "https://api.ideogram.ai/generate"
  | Reframe => "https://api.ideogram.ai/reframe"
  | Remix => "https://api.ideogram.ai/remix"
  end.

(** The options of the upload that stores a route's result. *)
Definition final_options (r : route) : upload_options :=
  match r with
  | Generate => {| folder := "ideogram-images"; format := Some "png" |}
  | Reframe => {| folder := "ideogram-reframed"; format := Some "png" |}
  | Remix => {| folder := "ideogram-remixed"; format := Some "png" |}
  end.

(** The options of the upload that parks an uploaded file of a remix. *)
Definition temp_options : upload_options :=
  {| folder := "temp-uploads"; format := None |}.

(** The message of a route's catch block for an error without one. *)
Definition fallback (r : route) : string :=
  match r with
  | Generate => "Failed to process image"
  | Reframe => "Failed to reframe image"
  | Remix => "Failed to remix image"
  end.

(** The message of a route's 500 for a generation response without image. *)
Definition no_result (r : route) : string :=
  match r with
  | Generate => "Failed to generate image"
  | Reframe => "Failed to reframe image"
  | Remix => "Failed to remix image"
  end.

(** The image reference a route reads off the generation response. *)
Definition generated_image (r : route) (data : value) : value :=
  match r with
  | Reframe => prop data "image"
  | Generate | Remix => elem0 (prop data "images")
  end.

(** A route's test for a generation response without image. *)
Definition without_image (r : route) (data : value) : bool :=
  match r with
  | Reframe => negb (truthy data) || negb (truthy (prop data "image"))
  | Generate | Remix =>
      negb (truthy data) || negb (truthy (prop data "images"))
      || is_zero (prop (prop data "images") "length")
  end.

(** ** A scripted outside world

    The world is the list of completions still to be handed out; each call,
    whichever client makes it, takes the next one. *)

Definition script : Type := list (completion value).

Definition next (w : script) : completion value * script :=
  match w with
  | [] => (Throw (Error "socket hang up"), [])
  | r :: rest => (r, rest)
  end.

Definition scripted : clients script :=
  {| axios_post := fun w _ _ _ => next w;
     axios_get := fun w _ _ => next w;
     sharp_png := fun w _ => next w;
     upload_stream := fun w _ _ => next w;
     IDEOGRAM_API_KEY := Some "test-key" |}.

Definition fox_request : request :=
  {| body := [("prompt", VStr "a red fox"); ("aspect_ratio", VStr "1:1")];
     file := None |}.

Definition fox_script : script :=
  [Normal (VObj [("images", VArr [VStr "https://ideogram.test/fox.jpg"])]);
   Normal (VBuf [xff; xd8]);
   Normal (VBuf [x89; x50]);
   Normal (VObj [("secure_url", VStr "https://cdn/x.png");
                 ("public_id", VStr "ideogram-images/x")])].

(** ** Vocabulary of the properties *)

(** A required field is missing when the handler's own test [!field]
    rejects it: the key is absent, or its value is falsy. *)
Definition missing (k : string) (req : request) : Prop :=
  truthy (lookup k (body req)) = false.

Definition absent (v : value) : Prop := v = VUndefined \/ v = VNull.

(** A generation response with zero images (generate, remix) or with no
    image reference (reframe). *)
Definition no_image (r : route) (data : value) : Prop :=
  match r with
  | Reframe => absent (prop data "image")
  | Generate | Remix => absent (prop data "images") \/ prop data "images" = VArr []
  end.

(** The namespace a call stores under, for an upload. *)
Definition call_folder (c : call) : option string :=
  match c with
  | CUpload options _ _ => Some (folder options)
  | _ => None
  end.

(** ** Sample requests and scripts *)

Definition blob : list byte := [xff; xd8; xff; xe0].

Definition parked : value :=
  VObj [("secure_url", VStr "https://cdn/tmp.jpg");
        ("public_id", VStr "temp-uploads/tmp")].

Definition remixed : value :=
  VObj [("images", VArr [VStr "https://ideogram.test/remix.jpg"])].

Definition stored : value :=
  VObj [("secure_url", VStr "https://cdn/y.png");
        ("public_id", VStr "ideogram-remixed/y")].

(** A remix of an uploaded file that names no prompt. *)
Definition blob_request_without_prompt : request :=
  {| body := [("aspect_ratio", VStr "16:9")]; file := Some blob |}.

(** A remix that brings both a file and an [image_url]. *)
Definition blob_and_url_request : request :=
  {| body := [("image_url", VStr "https://example.test/cat.jpg");
              ("prompt", VStr "as a watercolour")];
     file := Some blob |}.

Definition blob_request : request :=
  {| body := [("prompt", VStr "as a watercolour")]; file := Some blob |}.

Definition remix_script : script :=
  [Normal parked; Normal remixed; Normal (VBuf [xff; xd8]);
   Normal (VBuf [x89; x50]); Normal stored].

Definition empty_request : request := {| body := []; file := None |}.

(** ** Vocabulary of the further properties *)

Definition is_post (c : call) : bool :=
  match c with CPost _ _ _ _ => true | _ => false end.

Definition is_get (c : call) : bool :=
  match c with CGet _ _ _ => true | _ => false end.

Definition is_sharp (c : call) : bool :=
  match c with CSharp _ _ => true | _ => false end.

Definition is_upload (c : call) : bool :=
  match c with CUpload _ _ _ => true | _ => false end.

(** The receivers on which a property read throws. *)
Definition nullish (v : value) : bool :=
  match v with
  | VUndefined | VNull => true
  | _ => false
  end.

(** The label a route's catch block gives [console.error]. *)
Definition log_label (r : route) : string :=
  match r with
  | Generate => "Error generating image:"
  | Reframe => "Error reframing image:"
  | Remix => "Error remixing image:"
  end.

(** The field a route tests first (for remix, once the image source has been
    settled: its second test). *)
Definition required_field (r : route) : string :=
  match r with
  | Generate | Remix => "prompt"
  | Reframe => "image_url"
  end.

(** The JSON body a route posts to the generation service, [imageUrl]
    being what the remix handler has settled on. *)
Definition generation_payload (r : route) (req : request) (imageUrl : value)
  : value :=
  let aspect_ratio := default_to (lookup "aspect_ratio" (body req)) (VStr "1:1") in
  match r with
  | Generate =>
      VObj [("prompt", lookup "prompt" (body req)); ("aspect_ratio", aspect_ratio)]
  | Reframe =>
      VObj [("image_url", lookup "image_url" (body req));
            ("aspect_ratio", aspect_ratio)]
  | Remix =>
      VObj [("image_url", imageUrl); ("prompt", lookup "prompt" (body req));
            ("aspect_ratio", aspect_ratio)]
  end.

(** A plain request for each route, and a request that names its own aspect
    ratio as [null]. *)
Definition cat_request : request :=
  {| body := [("image_url", VStr "https://example.test/cat.jpg");
              ("prompt", VStr "as a watercolour")];
     file := None |}.

Definition null_ratio_request : request :=
  {| body := [("prompt", VStr "a red fox"); ("aspect_ratio", VNull)];
     file := None |}.

Definition reframed : value :=
  VObj [("image", VStr "https://ideogram.test/wide.jpg")].

Definition reframe_script : script :=
  [Normal reframed; Normal (VBuf [xff; xd8]); Normal (VBuf [x89; x50]);
   Normal stored].

(** ** Reasoning about runs *)

(** Opens the handlers down to the clients' transitions, leaving the value
    operations folded. *)
Ltac open_handlers :=
  unfold serve, handle, generate, reframe, remix, remix_with, try_catch,
    on_error, console_error, bind, post, get, sharp, upload, respond, ret,
    throw, record, fresh in *.

Ltac reduce_run :=
  cbn [fst snd world calls console status json app call_result message Error
       negb orb andb] in *.

(** Splits on the innermost scrutinee of the run: a client's completion, a
    test of the handler, or the receiver of a [member]. *)
Ltac split_run :=
  match goal with
  | H : context [member _ ?v _] |- _ => destruct v; unfold member in H
  | H : context [match ?x with _ => _ end] |- _ =>
      lazymatch x with
      | context [match _ with _ => _ end] => fail
      | _ => destruct x eqn:?
      end
  end.

Ltac runs H :=
  open_handlers; reduce_run;
  repeat (split_run; open_handlers; reduce_run);
  try (injection H as <- <-); reduce_run.

(** Which entry of a run's (by now explicit) log a hypothesis speaks of. *)
Ltac pick_call H :=
  cbn [In] in H;
  repeat match type of H with _ \/ _ => destruct H as [H | H] end;
  try contradiction; try discriminate H;
  try (injection H; intros; clear H); try subst.

(** The log ends with the call at hand. *)
Ltac ends_here :=
  first [ exists []; reflexivity
        | eexists [_]; reflexivity
        | eexists [_; _]; reflexivity
        | eexists [_; _; _]; reflexivity
        | eexists [_; _; _; _]; reflexivity ].

Section Runs.

Variable W : Type.
Variable env : clients W.

(** A call that throws ends the run: it is the last call, and the catch
    block answers from its error. *)
Lemma thrown_call_is_last (r : route) (req : request) (w : W)
    (res : response) (st : state W) (c : call) (e : error) :
  serve env r req w = (res, st) ->
  In c (calls st) ->
  call_result c = Throw e ->
  (exists pre, calls st = pre ++ [c]) /\
  res = {| status := 500; json := error_body (or_else (message e) (fallback r)) |}.
Proof.
  intros Hrun Hin Hres.
  destruct r; runs Hrun.
  all: pick_call Hin; cbn [call_result] in Hres; try discriminate Hres.
  all: injection Hres as ->.
  all: split; [ends_here | reflexivity].
Qed.

(** The upload that stores a route's result is the last call of its run,
    and its chunk is what the transcoder returned just before. *)
Lemma final_upload_follows_transcode (r : route) (req : request) (w : W)
    (res : response) (st : state W) (chunk : value) (o : completion value) :
  serve env r req w = (res, st) ->
  In (CUpload (final_options r) chunk o) (calls st) ->
  exists pre input,
    calls st = pre ++ [CSharp input (Normal chunk); CUpload (final_options r) chunk o].
Proof.
  intros Hrun Hin.
  destruct r; runs Hrun; cbn [final_options] in *.
  all: pick_call Hin.
  all: first [ exists []; eexists; reflexivity
             | eexists [_]; eexists; reflexivity
             | eexists [_; _]; eexists; reflexivity
             | eexists [_; _; _]; eexists; reflexivity ].
Qed.

(** The calls of a run answered 200: generation, fetch, transcoding and the
    upload under the route's folder, each resolved, in this order and last. *)
Lemma success_shape (r : route) (req : request) (w : W)
    (res : response) (st : state W) :
  serve env r req w = (res, st) ->
  status res = 200%Z ->
  exists pre payload hs data bytes png result,
    calls st = pre ++ [CPost (endpoint r) payload hs (Normal data);
                       CGet (generated_image r data) "arraybuffer" (Normal bytes);
                       CSharp bytes (Normal png);
                       CUpload (final_options r) png (Normal result)].
Proof.
  intros Hrun Hok.
  destruct r; runs Hrun; try discriminate Hok.
  all: first [ exists []; do 6 eexists; reflexivity
             | eexists [_]; do 6 eexists; reflexivity ].
Qed.

(** With a file, the remix handler stores it first, under [temp-uploads],
    whatever the body holds; the generation service is then given the
    [secure_url] of what that upload resolved to. *)
Lemma remix_file_run (req : request) (buffer : list byte) (w : W)
    (res : response) (st : state W) :
  file req = Some buffer ->
  serve env Remix req w = (res, st) ->
  exists o rest,
    calls st = CUpload temp_options (VBuf buffer) o :: rest /\
    forall url payload hs o',
      In (CPost url payload hs o') rest ->
      exists parked,
        o = Normal parked /\ prop payload "image_url" = prop parked "secure_url".
Proof.
  intros Hfile Hrun. revert Hrun.
  open_handlers. rewrite Hfile. intros Hrun.
  runs Hrun; unfold temp_options.
  all: do 2 eexists; split; [reflexivity |].
  all: intros url payload hs o' Hin; pick_call Hin.
  all: eexists; split; reflexivity.
Qed.

End Runs.

Lemma or_else_nonempty (msg : option string) (fb : string) :
  fb <> "" -> or_else msg fb <> "".
Proof.
  intros Hfb. destruct msg as [s|]; cbn; [|exact Hfb].
  destruct (s =? "")%string eqn:Hs; [exact Hfb|].
  intros ->. discriminate Hs.
Qed.

Lemma or_else_message (s fb : string) : s <> "" -> or_else (Some s) fb = s.
Proof.
  intros Hs. cbn. destruct (String.eqb_spec s ""); [contradiction | reflexivity].
Qed.

Lemma or_else_fallback (msg : option string) (fb : string) :
  msg = None \/ msg = Some "" -> or_else msg fb = fb.
Proof. intros [-> | ->]; reflexivity. Qed.

(** The spec's reading of an empty generation result is one the handlers'
    own tests catch. *)
Lemma no_image_detected (r : route) (data : value) :
  no_image r data -> without_image r data = true.
Proof.
  unfold no_image, absent, without_image.
  destruct r; intros H.
  - destruct H as [[-> | ->] | ->]; cbn; apply orb_true_r || (rewrite orb_true_r; reflexivity).
  - destruct H as [-> | ->]; cbn; apply orb_true_r.
  - destruct H as [[-> | ->] | ->]; cbn; apply orb_true_r || (rewrite orb_true_r; reflexivity).
Qed.

(** ** Validation *)

Section Validation.

Variable W : Type.
Variable env : clients W.

(** The tests that come before any call: each answers 400 and leaves the
    log and the world as they were. *)
Lemma generate_missing_prompt (req : request) (w : W) :
  missing "prompt" req ->
  serve env Generate req w =
  ({| status := 400; json := error_body "Prompt is required" |}, fresh w).
Proof.
  unfold missing, serve, handle, generate, try_catch. intros ->. reflexivity.
Qed.

Lemma reframe_missing_image_url (req : request) (w : W) :
  missing "image_url" req ->
  serve env Reframe req w =
  ({| status := 400; json := error_body "Image URL is required" |}, fresh w).
Proof.
  unfold missing, serve, handle, reframe, try_catch. intros ->. reflexivity.
Qed.

Lemma remix_missing_source (req : request) (w : W) :
  file req = None ->
  missing "image_url" req ->
  serve env Remix req w =
  ({| status := 400; json := error_body "Image (file or URL) is required" |},
   fresh w).
Proof.
  unfold missing, serve, handle, remix, try_catch. intros -> ->. reflexivity.
Qed.

Lemma remix_url_missing_prompt (req : request) (w : W) :
  file req = None ->
  truthy (lookup "image_url" (body req)) = true ->
  missing "prompt" req ->
  serve env Remix req w =
  ({| status := 400; json := error_body "Prompt is required" |}, fresh w).
Proof.
  unfold missing, serve, handle, remix, remix_with, try_catch.
  intros -> -> ->. reflexivity.
Qed.

End Validation.

(** The spec's end-to-end scenario for [POST /api/generate]. *)
Example generate_red_fox :
  fst (serve scripted Generate fox_request fox_script) =
  {| status := 200;
     json := VObj [("success", VBool true);
                   ("original_url", VStr "https://ideogram.test/fox.jpg");
                   ("cloudinary_url", VStr "https://cdn/x.png");
                   ("public_id", VStr "ideogram-images/x")] |}.
Proof. reflexivity. Qed.

(** A remix of a file without prompt whose storing fails is answered 500,
    with the store's message: the prompt has not been looked at yet. *)
Example remix_without_prompt_upload_fails :
  fst (serve scripted Remix blob_request_without_prompt
         [Throw (Error "Invalid image file")]) =
  {| status := 500; json := error_body "Invalid image file" |}.
Proof. reflexivity. Qed.

(** C1. A request that lacks a required field is to be answered 400 with no
    call to any client. The remix handler does otherwise for an uploaded
    file without prompt: it stores the file under [temp-uploads] first and
    answers 400 only afterwards. *)
Theorem remix_without_prompt_still_uploads :
  missing "prompt" blob_request_without_prompt /\
  serve scripted Remix blob_request_without_prompt [Normal parked] =
  ({| status := 400; json := error_body "Prompt is required" |},
   {| world := [];
      calls := [CUpload {| folder := "temp-uploads"; format := None |}
                  (VBuf blob) (Normal parked)];
      console := [] |}).
Proof. split; reflexivity. Qed.

(** C7. [POST /api/reframe] with the empty JSON object as body is answered
    400 with body [{error: "Image URL is required"}], whatever the clients
    would do. *)
Theorem reframe_empty_body (W : Type) (env : clients W) (w : W) :
  serve env Reframe empty_request w =
  ({| status := 400; json := VObj [("error", VStr "Image URL is required")] |},
   fresh w).
Proof. reflexivity. Qed.

(** C9. A remix request with neither file, nor [image_url], nor prompt is
    answered 400 with the missing-image message, not the missing-prompt one:
    the image-source test comes first. *)
Theorem remix_source_checked_before_prompt (W : Type) (env : clients W)
    (req : request) (w : W) :
  file req = None ->
  missing "image_url" req ->
  missing "prompt" req ->
  status (fst (serve env Remix req w)) = 400%Z /\
  json (fst (serve env Remix req w)) =
    VObj [("error", VStr "Image (file or URL) is required")] /\
  json (fst (serve env Remix req w)) <> VObj [("error", VStr "Prompt is required")] /\
  calls (snd (serve env Remix req w)) = [].
Proof.
  intros Hfile Hurl _.
  rewrite (remix_missing_source W env req w Hfile Hurl). cbn.
  repeat split. discriminate.
Qed.

Lemma remix_source_checked_before_prompt_witness :
  status (fst (serve scripted Remix empty_request remix_script)) = 400%Z /\
  json (fst (serve scripted Remix empty_request remix_script)) =
    VObj [("error", VStr "Image (file or URL) is required")] /\
  json (fst (serve scripted Remix empty_request remix_script)) <>
    VObj [("error", VStr "Prompt is required")] /\
  calls (snd (serve scripted Remix empty_request remix_script)) = [].
Proof.
  apply (remix_source_checked_before_prompt script scripted empty_request
           remix_script); reflexivity.
Defined.

(** ** The pipeline *)

(** C2. A successful run answers [success: true], [original_url] the image
    reference read off the generation response (for generate and remix the
    first element of [images], for reframe [image]), and [cloudinary_url]
    and [public_id] the [secure_url] and [public_id] of what the last
    upload, the one under the route's own folder, resolved to. *)
Theorem success_reports_client_results (W : Type) (env : clients W)
    (r : route) (req : request) (w : W) (res : response) (st : state W) :
  serve env r req w = (res, st) ->
  status res = 200%Z ->
  exists pre payload hs data bytes png result,
    calls st = pre ++ [CPost (endpoint r) payload hs (Normal data);
                       CGet (generated_image r data) "arraybuffer" (Normal bytes);
                       CSharp bytes (Normal png);
                       CUpload (final_options r) png (Normal result)] /\
    json res = VObj [("success", VBool true);
                     ("original_url", generated_image r data);
                     ("cloudinary_url", prop result "secure_url");
                     ("public_id", prop result "public_id")] /\
    (r <> Reframe -> forall items,
       prop data "images" = VArr items ->
       hd_error items = Some (generated_image r data)).
Proof.
  intros Hrun Hok.
  destruct r; runs Hrun; try discriminate Hok.
  all: first [ exists []; do 6 eexists; split; [reflexivity |]
             | eexists [_]; do 6 eexists; split; [reflexivity |] ].
  all: split; [reflexivity |].
  all: intros Hr imgs Himages; try congruence.
  all: cbn [generated_image]; rewrite Himages in *.
  all: destruct imgs as [|img imgs]; [| reflexivity].
  all: match goal with
       | Hc : _ || _ = false |- _ => cbn in Hc; rewrite orb_true_r in Hc; discriminate Hc
       end.
Qed.

Lemma success_reports_client_results_witness :
  exists pre payload hs data bytes png result,
    calls (snd (serve scripted Remix blob_and_url_request remix_script)) =
      pre ++ [CPost (endpoint Remix) payload hs (Normal data);
              CGet (generated_image Remix data) "arraybuffer" (Normal bytes);
              CSharp bytes (Normal png);
              CUpload (final_options Remix) png (Normal result)] /\
    json (fst (serve scripted Remix blob_and_url_request remix_script)) =
      VObj [("success", VBool true);
            ("original_url", generated_image Remix data);
            ("cloudinary_url", prop result "secure_url");
            ("public_id", prop result "public_id")] /\
    (Remix <> Reframe -> forall items,
       prop data "images" = VArr items ->
       hd_error items = Some (generated_image Remix data)).
Proof.
  apply (success_reports_client_results script scripted Remix
           blob_and_url_request remix_script); reflexivity.
Defined.

(** C3. When the generation call resolves to a response with zero images
    (generate, remix) or with no image reference (reframe), the answer is
    500 and that call is the last one of the run: neither the fetch of the
    image bytes nor an upload follows it. *)
Theorem no_image_is_500 (W : Type) (env : clients W)
    (r : route) (req : request) (w : W) (res : response) (st : state W)
    (url : string) (payload : value) (hs : headers) (data : value) :
  serve env r req w = (res, st) ->
  In (CPost url payload hs (Normal data)) (calls st) ->
  no_image r data ->
  status res = 500%Z /\
  json res = VObj [("error", VStr (no_result r))] /\
  exists pre, calls st = pre ++ [CPost url payload hs (Normal data)].
Proof.
  intros Hrun Hin Hno. apply no_image_detected in Hno.
  destruct r; runs Hrun; cbn [without_image] in Hno.
  all: pick_call Hin; try congruence.
  all: repeat split; ends_here.
Qed.

Lemma no_image_is_500_witness :
  status (fst (serve scripted Generate fox_request [Normal (VObj [("images", VArr [])])]))
    = 500%Z /\
  json (fst (serve scripted Generate fox_request [Normal (VObj [("images", VArr [])])]))
    = VObj [("error", VStr (no_result Generate))] /\
  exists pre,
    calls (snd (serve scripted Generate fox_request [Normal (VObj [("images", VArr [])])]))
    = pre ++ [CPost (endpoint Generate)
                (VObj [("prompt", VStr "a red fox"); ("aspect_ratio", VStr "1:1")])
                [("Authorization", "Bearer test-key");
                 ("Content-Type", "application/json")]
                (Normal (VObj [("images", VArr [])]))].
Proof.
  apply (no_image_is_500 script scripted Generate fox_request
           [Normal (VObj [("images", VArr [])])]).
  - reflexivity.
  - cbn. left. reflexivity.
  - cbn. right. reflexivity.
Defined.

(** C4. When the transcoder rejects the fetched bytes, the answer is 500,
    the transcoding is the last call of the run, and no upload under the
    route's own folder is made. *)
Theorem transcode_failure_blocks_store (W : Type) (env : clients W)
    (r : route) (req : request) (w : W) (res : response) (st : state W)
    (input : value) (e : error) :
  serve env r req w = (res, st) ->
  In (CSharp input (Throw e)) (calls st) ->
  status res = 500%Z /\
  (exists pre, calls st = pre ++ [CSharp input (Throw e)]) /\
  forall chunk o, ~ In (CUpload (final_options r) chunk o) (calls st).
Proof.
  intros Hrun Hin.
  destruct (thrown_call_is_last W env r req w res st _ e Hrun Hin eq_refl)
    as [[pre Hlast] ->].
  split; [reflexivity | split; [exists pre; exact Hlast |]].
  intros chunk o Hup.
  destruct (final_upload_follows_transcode W env r req w _ st chunk o Hrun Hup)
    as (pre' & input' & Hshape).
  rewrite Hlast in Hshape.
  change (pre' ++ [CSharp input' (Normal chunk); CUpload (final_options r) chunk o])
    with (pre' ++ [CSharp input' (Normal chunk)] ++ [CUpload (final_options r) chunk o])
    in Hshape.
  rewrite app_assoc in Hshape.
  apply app_inj_tail in Hshape. destruct Hshape as [_ Hc]. discriminate Hc.
Qed.

Lemma transcode_failure_blocks_store_witness :
  status (fst (serve scripted Generate fox_request
                 [Normal (VObj [("images", VArr [VStr "u"])]); Normal (VBuf []);
                  Throw (Error "Input buffer is empty")])) = 500%Z /\
  (exists pre,
     calls (snd (serve scripted Generate fox_request
                   [Normal (VObj [("images", VArr [VStr "u"])]); Normal (VBuf []);
                    Throw (Error "Input buffer is empty")]))
     = pre ++ [CSharp (VBuf []) (Throw (Error "Input buffer is empty"))]) /\
  forall chunk o,
    ~ In (CUpload (final_options Generate) chunk o)
        (calls (snd (serve scripted Generate fox_request
                       [Normal (VObj [("images", VArr [VStr "u"])]); Normal (VBuf []);
                        Throw (Error "Input buffer is empty")]))).
Proof.
  apply (transcode_failure_blocks_store script scripted Generate fox_request
           [Normal (VObj [("images", VArr [VStr "u"])]); Normal (VBuf []);
            Throw (Error "Input buffer is empty")]).
  - reflexivity.
  - cbn. right. right. left. reflexivity.
Defined.

(** ** The image source of a remix *)

(** C5. In a remix request with an uploaded file, the file alone is the
    image source: the answer and the calls do not depend on [image_url]
    (two such requests that agree on the file, the prompt and the aspect
    ratio run alike), the file's bytes are what is stored first, and the
    generation service is given the URL of that stored copy. With neither a
    file nor an [image_url] the answer is 400. *)
Theorem remix_file_takes_precedence (W : Type) (env : clients W)
    (req : request) (w : W) :
  (forall buffer, file req = Some buffer ->
     (forall req',
        file req' = Some buffer ->
        lookup "prompt" (body req') = lookup "prompt" (body req) ->
        lookup "aspect_ratio" (body req') = lookup "aspect_ratio" (body req) ->
        serve env Remix req' w = serve env Remix req w) /\
     exists o rest,
       calls (snd (serve env Remix req w)) =
         CUpload {| folder := "temp-uploads"; format := None |} (VBuf buffer) o :: rest /\
       forall url payload hs o',
         In (CPost url payload hs o') rest ->
         exists parked,
           o = Normal parked /\ prop payload "image_url" = prop parked "secure_url") /\
  (file req = None -> missing "image_url" req ->
   status (fst (serve env Remix req w)) = 400%Z /\
   calls (snd (serve env Remix req w)) = []).
Proof.
  split.
  - intros buffer Hfile. split.
    + intros req' Hfile' Hprompt Hratio.
      unfold serve, handle, remix, remix_with.
      rewrite Hfile, Hfile', Hprompt, Hratio. reflexivity.
    + destruct (serve env Remix req w) as [res st] eqn:Hrun.
      exact (remix_file_run W env req buffer w res st Hfile Hrun).
  - intros Hfile Hurl.
    rewrite (remix_missing_source W env req w Hfile Hurl). split; reflexivity.
Qed.

Lemma remix_file_takes_precedence_witness :
  serve scripted Remix blob_request remix_script =
    serve scripted Remix blob_and_url_request remix_script /\
  status (fst (serve scripted Remix empty_request remix_script)) = 400%Z.
Proof.
  split.
  - apply (proj1 (remix_file_takes_precedence script scripted
                    blob_and_url_request remix_script) blob eq_refl);
      reflexivity.
  - apply (proj2 (remix_file_takes_precedence script scripted
                    empty_request remix_script)); reflexivity.
Defined.

(** ** Namespaces in the media store *)

(** C6, as the code has it. The three routes store their results under three
    pairwise distinct folders, each fixed for its route; a successful run
    ends with the upload under that folder; the only other upload is the
    pre-step of a remix with a file, which stores the file's bytes under
    [temp-uploads] before anything else and hands the resulting
    [secure_url] to the generation service. *)
Theorem uploads_are_namespaced (W : Type) (env : clients W)
    (r : route) (req : request) (w : W) (res : response) (st : state W) :
  serve env r req w = (res, st) ->
  (forall r1 r2, r1 <> r2 -> folder (final_options r1) <> folder (final_options r2)) /\
  (status res = 200%Z ->
   exists pre chunk result,
     calls st = pre ++ [CUpload (final_options r) chunk (Normal result)]) /\
  (forall options chunk o,
     In (CUpload options chunk o) (calls st) ->
     options = final_options r \/
     (r = Remix /\ folder options = "temp-uploads" /\
      exists buffer, file req = Some buffer /\ chunk = VBuf buffer)) /\
  (forall buffer, r = Remix -> file req = Some buffer ->
   exists o rest,
     calls st = CUpload {| folder := "temp-uploads"; format := None |} (VBuf buffer) o
                :: rest /\
     forall url payload hs o',
       In (CPost url payload hs o') rest ->
       exists parked,
         o = Normal parked /\ prop payload "image_url" = prop parked "secure_url").
Proof.
  intros Hrun. split; [| split; [| split]].
  - intros [] [] Hne; try congruence; discriminate.
  - intros Hok.
    destruct (success_shape W env r req w res st Hrun Hok)
      as (pre & payload & hs & data & bytes & png & result & Hcalls).
    exists (pre ++ [CPost (endpoint r) payload hs (Normal data);
                    CGet (generated_image r data) "arraybuffer" (Normal bytes);
                    CSharp bytes (Normal png)]), png, result.
    rewrite Hcalls, <- app_assoc. reflexivity.
  - intros options chunk o Hin.
    destruct r; runs Hrun; pick_call Hin.
    all: first [ left; reflexivity
               | right; split; [reflexivity | split; [reflexivity |]];
                 eexists; split; reflexivity ].
  - intros buffer -> Hfile.
    exact (remix_file_run W env req buffer w res st Hfile Hrun).
Qed.

Lemma uploads_are_namespaced_witness :
  exists o rest,
    calls (snd (serve scripted Remix blob_request remix_script)) =
      CUpload {| folder := "temp-uploads"; format := None |} (VBuf blob) o :: rest /\
    forall url payload hs o',
      In (CPost url payload hs o') rest ->
      exists parked,
        o = Normal parked /\ prop payload "image_url" = prop parked "secure_url".
Proof.
  apply (proj2 (proj2 (proj2
           (uploads_are_namespaced script scripted Remix blob_request remix_script
              (fst (serve scripted Remix blob_request remix_script))
              (snd (serve scripted Remix blob_request remix_script))
              eq_refl))) blob eq_refl eq_refl).
Defined.

(** C6 as worded names the folder of the pre-step [temp]; in a remix of an
    uploaded file no call stores anything under a folder of that name. *)
Lemma remix_file_not_stored_under_temp :
  ~ exists c,
      In c (calls (snd (serve scripted Remix blob_request remix_script))) /\
      call_folder c = Some "temp".
Proof.
  intros [c [Hin Hfolder]]. cbn in Hin.
  repeat destruct Hin as [<- | Hin]; try discriminate Hfolder.
  contradiction.
Qed.

(** ** Errors *)

(** C8, as the code has it. When a call to a client throws, the answer is
    500 with [error] the thrown error's message if it has a non-empty one,
    and the route's fallback message otherwise. *)
Theorem downstream_error_is_500 (W : Type) (env : clients W)
    (r : route) (req : request) (w : W) (res : response) (st : state W)
    (c : call) (e : error) :
  serve env r req w = (res, st) ->
  In c (calls st) ->
  call_result c = Throw e ->
  status res = 500%Z /\
  json res = VObj [("error", VStr (or_else (message e) (fallback r)))] /\
  (forall msg, message e = Some msg -> msg <> "" ->
     json res = VObj [("error", VStr msg)]) /\
  (message e = None \/ message e = Some "" ->
     json res = VObj [("error", VStr (fallback r))]).
Proof.
  intros Hrun Hin Hthrow.
  destruct (thrown_call_is_last W env r req w res st c e Hrun Hin Hthrow)
    as [_ ->].
  cbn [status json]. unfold error_body. repeat split.
  - intros msg -> Hmsg. rewrite or_else_message by exact Hmsg. reflexivity.
  - intros Hnone. rewrite or_else_fallback by exact Hnone. reflexivity.
Qed.

Lemma downstream_error_is_500_witness :
  status (fst (serve scripted Remix blob_request
                 [Normal parked; Throw (Error "Request failed with status code 422")]))
    = 500%Z /\
  json (fst (serve scripted Remix blob_request
               [Normal parked; Throw (Error "Request failed with status code 422")]))
    = VObj [("error", VStr "Request failed with status code 422")].
Proof.
  destruct (downstream_error_is_500 script scripted Remix blob_request
              [Normal parked; Throw (Error "Request failed with status code 422")]
              (fst (serve scripted Remix blob_request
                      [Normal parked; Throw (Error "Request failed with status code 422")]))
              (snd (serve scripted Remix blob_request
                      [Normal parked; Throw (Error "Request failed with status code 422")]))
              (CPost (endpoint Remix)
                 (VObj [("image_url", VStr "https://cdn/tmp.jpg");
                        ("prompt", VStr "as a watercolour");
                        ("aspect_ratio", VStr "1:1")])
                 [("Authorization", "Bearer test-key");
                  ("Content-Type", "application/json")]
                 (Throw (Error "Request failed with status code 422")))
              (Error "Request failed with status code 422")
              eq_refl (or_intror (or_introl eq_refl)) eq_refl)
    as (Hstatus & _ & Hmsg & _).
  split; [exact Hstatus |].
  apply Hmsg; [reflexivity | discriminate].
Defined.

(** C8 as worded has every thrown error's message in the answer verbatim;
    an error thrown with the empty message is answered with the fallback. *)
Lemma empty_message_is_replaced :
  ~ (forall c e msg,
       In c (calls (snd (serve scripted Generate fox_request [Throw (Error "")]))) ->
       call_result c = Throw e ->
       message e = Some msg ->
       json (fst (serve scripted Generate fox_request [Throw (Error "")]))
       = VObj [("error", VStr msg)]).
Proof.
  intros Hclaim.
  specialize (Hclaim
    (CPost (endpoint Generate)
       (VObj [("prompt", VStr "a red fox"); ("aspect_ratio", VStr "1:1")])
       [("Authorization", "Bearer test-key"); ("Content-Type", "application/json")]
       (Throw (Error "")))
    (Error "") "" (or_introl eq_refl) eq_refl eq_refl).
  discriminate Hclaim.
Qed.

(** C10. The [error] of a 500 answer is a non-empty string; when a client's
    error has no message, or the empty one, it is the route's fallback:
    'Failed to process image', 'Failed to reframe image' or 'Failed to
    remix image'. *)
Theorem error_field_is_nonempty (W : Type) (env : clients W)
    (r : route) (req : request) (w : W) (res : response) (st : state W) :
  serve env r req w = (res, st) ->
  status res = 500%Z ->
  (exists msg, json res = VObj [("error", VStr msg)] /\ msg <> "") /\
  (forall c e,
     In c (calls st) -> call_result c = Throw e ->
     message e = None \/ message e = Some "" ->
     json res = VObj [("error", VStr (fallback r))]) /\
  fallback r = match r with
               | Generate => "Failed to process image"
               | Reframe => "Failed to reframe image"
               | Remix => "Failed to remix image"
               end.
Proof.
  intros Hrun Hfailed. split; [| split].
  - destruct r; runs Hrun; try discriminate Hfailed.
    all: eexists; split; [reflexivity |].
    all: first [ discriminate | apply or_else_nonempty; discriminate ].
  - intros c e Hin Hthrow Hnone.
    destruct (thrown_call_is_last W env r req w res st c e Hrun Hin Hthrow)
      as [_ ->].
    cbn [json]. unfold error_body.
    rewrite or_else_fallback by exact Hnone. reflexivity.
  - destruct r; reflexivity.
Qed.

Lemma error_field_is_nonempty_witness :
  json (fst (serve scripted Reframe
               {| body := [("image_url", VStr "https://example.test/cat.jpg")];
                  file := None |}
               [Throw {| message := None |}]))
  = VObj [("error", VStr "Failed to reframe image")].
Proof.
  apply (proj1 (proj2
           (error_field_is_nonempty script scripted Reframe
              {| body := [("image_url", VStr "https://example.test/cat.jpg")];
                 file := None |}
              [Throw {| message := None |}]
              (fst (serve scripted Reframe
                      {| body := [("image_url", VStr "https://example.test/cat.jpg")];
                         file := None |}
                      [Throw {| message := None |}]))
              (snd (serve scripted Reframe
                      {| body := [("image_url", VStr "https://example.test/cat.jpg")];
                         file := None |}
                      [Throw {| message := None |}]))
              eq_refl eq_refl))
           (CPost (endpoint Reframe)
              (VObj [("image_url", VStr "https://example.test/cat.jpg");
                     ("aspect_ratio", VStr "1:1")])
              [("Authorization", "Bearer test-key");
               ("Content-Type", "application/json")]
              (Throw {| message := None |}))
           {| message := None |}
           (or_introl eq_refl) eq_refl (or_introl eq_refl)).
Defined.

(** * Further properties of the handlers *)

(** ** Answers *)

(** An answer is either a success, status 200 with [success: true] and no
    [error], or a failure, status 400 or 500 with nothing but a non-empty
    [error] string. *)
Theorem answers_are_success_or_error (W : Type) (env : clients W)
    (r : route) (req : request) (w : W) :
  let res := fst (serve env r req w) in
  (status res = 200%Z /\
   prop (json res) "success" = VBool true /\
   prop (json res) "error" = VUndefined) \/
  ((status res = 400%Z \/ status res = 500%Z) /\
   exists msg, json res = VObj [("error", VStr msg)] /\ msg <> "").
Proof.
  destruct (serve env r req w) as [res st] eqn:Hrun. cbn [fst].
  destruct r; runs Hrun.
  all: first
    [ left; repeat split; reflexivity
    | right; split; [first [left; reflexivity | right; reflexivity] |];
      eexists; split; [reflexivity |];
      first [ discriminate | apply or_else_nonempty; discriminate ] ].
Qed.

(** A 400 names a field that the request does lack: the handlers never
    answer 400 to a request that has its required fields. Without an
    uploaded file no client has been called by then. *)
Theorem bad_request_names_missing_field (W : Type) (env : clients W)
    (r : route) (req : request) (w : W) (res : response) (st : state W) :
  serve env r req w = (res, st) ->
  status res = 400%Z ->
  (file req = None -> calls st = []) /\
  ((missing (required_field r) req /\
    json res = VObj [("error", VStr match r with
                                    | Reframe => "Image URL is required"
                                    | Generate | Remix => "Prompt is required"
                                    end)]) \/
   (r = Remix /\ file req = None /\ missing "image_url" req /\
    json res = VObj [("error", VStr "Image (file or URL) is required")])).
Proof.
  intros Hrun Hbad.
  destruct r; runs Hrun; try discriminate Hbad; unfold missing.
  all: cbn [required_field].
  all: repeat match goal with
       | H : negb _ = true |- _ => apply negb_true_iff in H
       end.
  all: split; [first [reflexivity | intros Hnone; discriminate Hnone] |].
  all: first [ left; split; [assumption | reflexivity]
             | right; repeat split; assumption ].
Qed.

Lemma bad_request_names_missing_field_witness :
  (file blob_request_without_prompt = None ->
   calls (snd (serve scripted Remix blob_request_without_prompt [Normal parked])) = []) /\
  ((missing (required_field Remix) blob_request_without_prompt /\
    json (fst (serve scripted Remix blob_request_without_prompt [Normal parked]))
    = VObj [("error", VStr "Prompt is required")]) \/
   (Remix = Remix /\ file blob_request_without_prompt = None /\
    missing "image_url" blob_request_without_prompt /\
    json (fst (serve scripted Remix blob_request_without_prompt [Normal parked]))
    = VObj [("error", VStr "Image (file or URL) is required")])).
Proof.
  apply (bad_request_names_missing_field script scripted Remix
           blob_request_without_prompt [Normal parked]); reflexivity.
Defined.

(** ** What the generation service is sent *)

(** Every call to the generation service goes to the route's endpoint, with
    the headers of [ideogram_headers] and the payload of
    [generation_payload]; by then the route's required field has passed its
    test. *)
Lemma generation_call_shape (W : Type) (env : clients W)
    (r : route) (req : request) (w : W) (res : response) (st : state W)
    (url : string) (payload : value) (hs : headers) (o : completion value) :
  serve env r req w = (res, st) ->
  In (CPost url payload hs o) (calls st) ->
  url = endpoint r /\
  hs = [("Authorization", ("Bearer " ++ interpolate (IDEOGRAM_API_KEY env))%string);
        ("Content-Type", "application/json")] /\
  truthy (lookup (required_field r) (body req)) = true /\
  exists imageUrl,
    payload = generation_payload r req imageUrl /\
    (file req = None -> imageUrl = lookup "image_url" (body req)).
Proof.
  intros Hrun Hin.
  destruct r; runs Hrun; pick_call Hin.
  all: repeat match goal with
       | H : negb _ = false |- _ => apply negb_false_iff in H
       end.
  all: split; [reflexivity | split; [reflexivity | split; [assumption |]]].
  all: eexists; split; [reflexivity |].
  all: first [ reflexivity | intros Hnone; discriminate Hnone ].
Qed.

(** The generation service is called at the route's own endpoint, with a
    bearer token made of the configured key (the text [undefined] when none
    is configured) and a JSON content type, and with a payload of the
    route's named fields only: [prompt] and [image_url] as the body has
    them, nothing else of the body. *)
Theorem generation_request_is_built_from_body (W : Type) (env : clients W)
    (r : route) (req : request) (w : W) (res : response) (st : state W)
    (url : string) (payload : value) (hs : headers) (o : completion value) :
  serve env r req w = (res, st) ->
  In (CPost url payload hs o) (calls st) ->
  url = endpoint r /\
  hs = [("Authorization",
         match IDEOGRAM_API_KEY env with
         | Some key => ("Bearer " ++ key)%string
         | None => "Bearer undefined"
         end);
        ("Content-Type", "application/json")] /\
  match r with
  | Generate =>
      exists ratio,
        payload = VObj [("prompt", lookup "prompt" (body req));
                        ("aspect_ratio", ratio)]
  | Reframe =>
      exists ratio,
        payload = VObj [("image_url", lookup "image_url" (body req));
                        ("aspect_ratio", ratio)]
  | Remix =>
      exists imageUrl ratio,
        payload = VObj [("image_url", imageUrl);
                        ("prompt", lookup "prompt" (body req));
                        ("aspect_ratio", ratio)] /\
        (file req = None ->
         imageUrl = lookup "image_url" (body req) /\ truthy imageUrl = true)
  end /\
  truthy (prop payload (required_field r)) = true.
Proof.
  intros Hrun Hin.
  destruct (generation_call_shape W env r req w res st url payload hs o Hrun Hin)
    as (-> & -> & Hfield & imageUrl & -> & Hurl).
  split; [reflexivity |].
  split; [destruct (IDEOGRAM_API_KEY env); reflexivity |].
  split; [| destruct r; exact Hfield].
  destruct r; cbn [generation_payload].
  - eexists; reflexivity.
  - eexists; reflexivity.
  - do 2 eexists. split; [reflexivity |].
    intros Hnone. split; [exact (Hurl Hnone) |].
    rewrite (Hurl Hnone).
    revert Hrun. unfold serve, handle, remix. rewrite Hnone.
    destruct (truthy (lookup "image_url" (body req))) eqn:Htest; [reflexivity |].
    cbn. intros Hrun. injection Hrun as <- <-. destruct Hin.
Qed.

Lemma generation_request_is_built_from_body_witness :
  endpoint Remix = endpoint Remix /\
  [("Authorization", "Bearer test-key"); ("Content-Type", "application/json")] =
  [("Authorization",
    match IDEOGRAM_API_KEY scripted with
    | Some key => ("Bearer " ++ key)%string
    | None => "Bearer undefined"
    end);
   ("Content-Type", "application/json")] /\
  (exists imageUrl ratio,
     generation_payload Remix cat_request (VStr "https://example.test/cat.jpg") =
       VObj [("image_url", imageUrl);
             ("prompt", lookup "prompt" (body cat_request));
             ("aspect_ratio", ratio)] /\
     (file cat_request = None ->
      imageUrl = lookup "image_url" (body cat_request) /\ truthy imageUrl = true)) /\
  truthy (prop (generation_payload Remix cat_request
                  (VStr "https://example.test/cat.jpg")) (required_field Remix)) = true.
Proof.
  apply (generation_request_is_built_from_body script scripted Remix cat_request
           [Normal remixed]
           (fst (serve scripted Remix cat_request [Normal remixed]))
           (snd (serve scripted Remix cat_request [Normal remixed]))
           (endpoint Remix)
           (generation_payload Remix cat_request (VStr "https://example.test/cat.jpg"))
           [("Authorization", "Bearer test-key"); ("Content-Type", "application/json")]
           (Normal remixed)).
  - reflexivity.
  - cbn. left. reflexivity.
Defined.

(** The aspect ratio sent is ["1:1"] exactly when the body has no
    [aspect_ratio]; any value the body does give, [null] and the empty
    string included, is sent as it is. *)
Theorem aspect_ratio_defaults_only_when_absent (W : Type) (env : clients W)
    (r : route) (req : request) (w : W) (res : response) (st : state W)
    (url : string) (payload : value) (hs : headers) (o : completion value) :
  serve env r req w = (res, st) ->
  In (CPost url payload hs o) (calls st) ->
  (lookup "aspect_ratio" (body req) = VUndefined ->
   prop payload "aspect_ratio" = VStr "1:1") /\
  (lookup "aspect_ratio" (body req) <> VUndefined ->
   prop payload "aspect_ratio" = lookup "aspect_ratio" (body req)).
Proof.
  intros Hrun Hin.
  destruct (generation_call_shape W env r req w res st url payload hs o Hrun Hin)
    as (_ & _ & _ & imageUrl & -> & _).
  assert (Hsent : prop (generation_payload r req imageUrl) "aspect_ratio"
                  = default_to (lookup "aspect_ratio" (body req)) (VStr "1:1"))
    by (destruct r; reflexivity).
  rewrite Hsent. split.
  - intros ->. reflexivity.
  - destruct (lookup "aspect_ratio" (body req)); intros Hgiven;
      [contradiction Hgiven |..]; reflexivity.
Qed.

Lemma aspect_ratio_defaults_only_when_absent_witness :
  prop (generation_payload Generate null_ratio_request VUndefined) "aspect_ratio"
  = VNull.
Proof.
  apply (proj2 (aspect_ratio_defaults_only_when_absent script scripted Generate
                  null_ratio_request []
                  (fst (serve scripted Generate null_ratio_request []))
                  (snd (serve scripted Generate null_ratio_request []))
                  (endpoint Generate)
                  (generation_payload Generate null_ratio_request VUndefined)
                  [("Authorization", "Bearer test-key");
                   ("Content-Type", "application/json")]
                  (Throw (Error "socket hang up"))
                  eq_refl (or_introl eq_refl))).
  discriminate.
Defined.

(** ** How the stages follow one another *)

(** Tries the prefixes a log can have before the entries a goal names. *)
Ltac after_prefix tac :=
  first [ exists []; tac
        | eexists [_]; tac
        | eexists [_; _]; tac
        | eexists [_; _; _]; tac
        | eexists [_; _; _; _]; tac ].

(** Each stage works on what the stage before it resolved to. A fetch asks
    for an [arraybuffer] at the image reference of the generation response
    just before it, which passed the route's test; the transcoder is given
    the data of the fetch just before it; the upload under the route's
    folder is given the transcoder's output and ends the run. *)
Theorem stages_consume_previous_result (W : Type) (env : clients W)
    (r : route) (req : request) (w : W) (res : response) (st : state W) :
  serve env r req w = (res, st) ->
  (forall u rt o,
     In (CGet u rt o) (calls st) ->
     rt = "arraybuffer" /\
     exists pre payload hs data rest,
       calls st = pre ++ CPost (endpoint r) payload hs (Normal data)
                         :: CGet u rt o :: rest /\
       u = generated_image r data /\ without_image r data = false) /\
  (forall input o,
     In (CSharp input o) (calls st) ->
     exists pre u rest,
       calls st = pre ++ CGet u "arraybuffer" (Normal input) :: CSharp input o :: rest) /\
  (forall chunk o,
     In (CUpload (final_options r) chunk o) (calls st) ->
     exists pre input,
       calls st = pre ++ [CSharp input (Normal chunk);
                          CUpload (final_options r) chunk o]).
Proof.
  intros Hrun.
  pose proof (fun chunk o =>
                final_upload_follows_transcode W env r req w res st chunk o Hrun)
    as Hstore.
  split; [| split; [| exact Hstore]]; clear Hstore.
  all: destruct r; runs Hrun.
  all: lazymatch goal with
       | |- forall u rt o, In (CGet _ _ _) _ -> _ =>
           intros ? ? ? Hin;
           pick_call Hin; cbn [without_image generated_image endpoint];
           (split; [reflexivity |]);
           after_prefix ltac:(do 4 eexists; split; [reflexivity |]);
           (split; [reflexivity | assumption])
       | |- _ =>
           intros ? ? Hin;
           pick_call Hin;
           after_prefix ltac:(do 2 eexists; reflexivity)
       end.
Qed.

Lemma stages_consume_previous_result_witness :
  exists pre input,
    calls (snd (serve scripted Reframe cat_request reframe_script)) =
    pre ++ [CSharp input (Normal (VBuf [x89; x50]));
            CUpload (final_options Reframe) (VBuf [x89; x50]) (Normal stored)].
Proof.
  apply (proj2 (proj2
           (stages_consume_previous_result script scripted Reframe cat_request
              reframe_script
              (fst (serve scripted Reframe cat_request reframe_script))
              (snd (serve scripted Reframe cat_request reframe_script))
              eq_refl))).
  cbn. right. right. right. left. reflexivity.
Defined.

(** A stage that resolves is followed by the next one. After a generation
    response that passes the route's test comes the fetch of its image
    reference; after a resolved fetch, the transcoding of its data; after a
    resolved transcoding, the upload of its output under the route's
    folder, as the last call. *)
Theorem resolved_stage_is_followed (W : Type) (env : clients W)
    (r : route) (req : request) (w : W) (res : response) (st : state W) :
  serve env r req w = (res, st) ->
  (forall url payload hs data,
     In (CPost url payload hs (Normal data)) (calls st) ->
     without_image r data = false ->
     exists pre o rest,
       calls st = pre ++ CPost url payload hs (Normal data)
                         :: CGet (generated_image r data) "arraybuffer" o :: rest) /\
  (forall u rt bytes,
     In (CGet u rt (Normal bytes)) (calls st) ->
     exists pre o rest,
       calls st = pre ++ CGet u rt (Normal bytes) :: CSharp bytes o :: rest) /\
  (forall input png,
     In (CSharp input (Normal png)) (calls st) ->
     exists pre o,
       calls st = pre ++ [CSharp input (Normal png);
                          CUpload (final_options r) png o]).
Proof.
  intros Hrun. destruct r; runs Hrun.
  all: split; [| split].
  all: lazymatch goal with
       | |- forall url payload hs data, In (CPost _ _ _ _) _ -> _ =>
           intros ? ? ? ? Hin Hpass;
           pick_call Hin; cbn [without_image generated_image] in *;
           try congruence;
           after_prefix ltac:(do 2 eexists; reflexivity)
       | |- forall u rt bytes, In (CGet _ _ _) _ -> _ =>
           intros ? ? ? Hin;
           pick_call Hin;
           after_prefix ltac:(do 2 eexists; reflexivity)
       | |- _ =>
           intros ? ? Hin;
           pick_call Hin; cbn [final_options];
           after_prefix ltac:(eexists; reflexivity)
       end.
Qed.

Lemma resolved_stage_is_followed_witness :
  exists pre o rest,
    calls (snd (serve scripted Reframe cat_request [Normal reframed])) =
    pre ++ CPost (endpoint Reframe)
             (generation_payload Reframe cat_request VUndefined)
             [("Authorization", "Bearer test-key");
              ("Content-Type", "application/json")]
             (Normal reframed)
           :: CGet (generated_image Reframe reframed) "arraybuffer" o :: rest.
Proof.
  apply (proj1
           (resolved_stage_is_followed script scripted Reframe cat_request
              [Normal reframed]
              (fst (serve scripted Reframe cat_request [Normal reframed]))
              (snd (serve scripted Reframe cat_request [Normal reframed]))
              eq_refl)).
  - cbn. left. reflexivity.
  - reflexivity.
Defined.

(** ** One attempt *)

(** A request makes at most one generation call, one fetch and one
    transcoding, and one upload (two for a remix of an uploaded file), and
    nothing is tried again: every call but the last one of a run has
    resolved. *)
Theorem single_attempt (W : Type) (env : clients W)
    (r : route) (req : request) (w : W) (res : response) (st : state W) :
  serve env r req w = (res, st) ->
  (List.length (filter is_post (calls st)) <= 1)%nat /\
  (List.length (filter is_get (calls st)) <= 1)%nat /\
  (List.length (filter is_sharp (calls st)) <= 1)%nat /\
  (List.length (filter is_upload (calls st)) <=
     match r with
     | Remix => match file req with Some _ => 2 | None => 1 end
     | Generate | Reframe => 1
     end)%nat /\
  Forall (fun c => exists v, call_result c = Normal v) (removelast (calls st)).
Proof.
  intros Hrun.
  destruct r; runs Hrun.
  all: cbn [filter is_post is_get is_sharp is_upload List.length removelast].
  all: repeat (split; [lia |]).
  all: repeat (constructor; [eexists; reflexivity |]).
  all: constructor.
Qed.

Lemma single_attempt_witness :
  (List.length (filter is_post (calls (snd (serve scripted Remix blob_request remix_script))))
     <= 1)%nat /\
  (List.length (filter is_get (calls (snd (serve scripted Remix blob_request remix_script))))
     <= 1)%nat /\
  (List.length (filter is_sharp (calls (snd (serve scripted Remix blob_request remix_script))))
     <= 1)%nat /\
  (List.length (filter is_upload (calls (snd (serve scripted Remix blob_request remix_script))))
     <= 2)%nat /\
  Forall (fun c => exists v, call_result c = Normal v)
    (removelast (calls (snd (serve scripted Remix blob_request remix_script)))).
Proof.
  apply (single_attempt script scripted Remix blob_request remix_script
           (fst (serve scripted Remix blob_request remix_script))).
  reflexivity.
Defined.

(** ** The console *)

(** [console.error] is reached from the catch blocks only: nothing is
    logged for an answer other than 500, nor for the 500 of a generation
    response without image; a call that throws is logged once, under the
    route's label, with the error's own message (not the fallback). *)
Theorem console_logs_caught_errors_only (W : Type) (env : clients W)
    (r : route) (req : request) (w : W) (res : response) (st : state W) :
  serve env r req w = (res, st) ->
  (status res <> 500%Z -> console st = []) /\
  (forall url payload hs data,
     In (CPost url payload hs (Normal data)) (calls st) ->
     without_image r data = true ->
     console st = []) /\
  (forall c e,
     In c (calls st) -> call_result c = Throw e ->
     console st = [(log_label r, message e)]) /\
  (List.length (console st) <= 1)%nat.
Proof.
  intros Hrun. destruct r; runs Hrun.
  all: split; [| split; [| split]].
  all: lazymatch goal with
       | |- _ <> _ -> _ =>
           intros Hother; first [reflexivity | contradiction Hother; reflexivity]
       | |- forall url payload hs data, In (CPost _ _ _ _) _ -> _ =>
           intros ? ? ? ? Hin Hnone;
           pick_call Hin; cbn [without_image] in *;
           first [reflexivity | congruence]
       | |- forall c e, In c _ -> _ =>
           intros ? ? Hin Hthrow;
           pick_call Hin; cbn [call_result] in Hthrow;
           try discriminate Hthrow;
           injection Hthrow as ->; reflexivity
       | |- _ => cbn [List.length]; lia
       end.
Qed.

Lemma console_logs_caught_errors_only_witness :
  console (snd (serve scripted Reframe cat_request [Throw {| message := None |}]))
  = [("Error reframing image:", None)].
Proof.
  apply (proj1 (proj2 (proj2
           (console_logs_caught_errors_only script scripted Reframe cat_request
              [Throw {| message := None |}]
              (fst (serve scripted Reframe cat_request [Throw {| message := None |}]))
              (snd (serve scripted Reframe cat_request [Throw {| message := None |}]))
              eq_refl)))
           (CPost (endpoint Reframe)
              (generation_payload Reframe cat_request VUndefined)
              [("Authorization", "Bearer test-key");
               ("Content-Type", "application/json")]
              (Throw {| message := None |}))
           {| message := None |}
           (or_introl eq_refl) eq_refl).
Defined.

(** ** What the store's result decides *)

(** Once the upload under the route's folder has resolved, the answer hangs
    on its result being an object at all: any result that is neither
    [undefined] nor [null] gives a 200 that reports its [secure_url] and
    [public_id] as they are (be they missing) and logs nothing; a nullish
    result gives a 500 whose message is logged. The stored object stays in
    either case. *)
Theorem final_upload_result_decides (W : Type) (env : clients W)
    (r : route) (req : request) (w : W) (res : response) (st : state W)
    (chunk v : value) :
  serve env r req w = (res, st) ->
  In (CUpload (final_options r) chunk (Normal v)) (calls st) ->
  (nullish v = false ->
   status res = 200%Z /\
   prop (json res) "cloudinary_url" = prop v "secure_url" /\
   prop (json res) "public_id" = prop v "public_id" /\
   console st = []) /\
  (nullish v = true ->
   status res = 500%Z /\
   exists msg,
     json res = VObj [("error", VStr msg)] /\
     console st = [(log_label r, Some msg)]).
Proof.
  intros Hrun Hin.
  destruct r; runs Hrun; cbn [final_options] in *; pick_call Hin.
  all: cbn [nullish]; split; intros Hnull; try discriminate Hnull.
  all: first [ repeat split; reflexivity
             | split; [reflexivity |]; eexists; split; reflexivity ].
Qed.

Lemma final_upload_result_decides_witness :
  status (fst (serve scripted Generate fox_request
                 [Normal (VObj [("images", VArr [VStr "u"])]); Normal (VBuf []);
                  Normal (VBuf [x89]); Normal (VObj [])])) = 200%Z /\
  prop (json (fst (serve scripted Generate fox_request
                     [Normal (VObj [("images", VArr [VStr "u"])]); Normal (VBuf []);
                      Normal (VBuf [x89]); Normal (VObj [])]))) "cloudinary_url"
  = prop (VObj []) "secure_url" /\
  prop (json (fst (serve scripted Generate fox_request
                     [Normal (VObj [("images", VArr [VStr "u"])]); Normal (VBuf []);
                      Normal (VBuf [x89]); Normal (VObj [])]))) "public_id"
  = prop (VObj []) "public_id" /\
  console (snd (serve scripted Generate fox_request
                  [Normal (VObj [("images", VArr [VStr "u"])]); Normal (VBuf []);
                   Normal (VBuf [x89]); Normal (VObj [])])) = [].
Proof.
  apply (proj1
           (final_upload_result_decides script scripted Generate fox_request
              [Normal (VObj [("images", VArr [VStr "u"])]); Normal (VBuf []);
               Normal (VBuf [x89]); Normal (VObj [])]
              (fst (serve scripted Generate fox_request
                      [Normal (VObj [("images", VArr [VStr "u"])]); Normal (VBuf []);
                       Normal (VBuf [x89]); Normal (VObj [])]))
              (snd (serve scripted Generate fox_request
                      [Normal (VObj [("images", VArr [VStr "u"])]); Normal (VBuf []);
                       Normal (VBuf [x89]); Normal (VObj [])]))
              (VBuf [x89]) (VObj [])
              eq_refl
              (or_intror (or_intror (or_intror (or_introl eq_refl)))))).
  reflexivity.
Defined.

(** ** The pre-step of a remix *)

(** A remix of an uploaded file starts by storing the file. If that upload
    fails, or resolves to [undefined] or [null], the answer is 500 and the
    generation service is not called. If it resolves to anything else, the
    prompt is tested next: without one the answer is 400; with one the
    generation service is called with the result's [secure_url] as
    [image_url], whatever it is (it is not tested). *)
Theorem remix_pre_step (W : Type) (env : clients W)
    (req : request) (buffer : list byte) (w : W)
    (res : response) (st : state W) :
  file req = Some buffer ->
  serve env Remix req w = (res, st) ->
  exists o rest,
    calls st = CUpload {| folder := "temp-uploads"; format := None |}
                 (VBuf buffer) o :: rest /\
    match o with
    | Throw e => rest = [] /\ status res = 500%Z
    | Normal parked =>
        if nullish parked then rest = [] /\ status res = 500%Z
        else if truthy (lookup "prompt" (body req)) then
          exists hs o' rest',
            rest = CPost (endpoint Remix)
                     (generation_payload Remix req (prop parked "secure_url"))
                     hs o' :: rest'
        else rest = [] /\ status res = 400%Z
    end.
Proof.
  intros Hfile Hrun. revert Hrun.
  open_handlers. rewrite Hfile. intros Hrun.
  runs Hrun.
  all: do 2 eexists; split; [reflexivity |]; cbn [nullish].
  all: repeat match goal with
       | H : negb _ = true |- _ => apply negb_true_iff in H; rewrite H
       | H : negb _ = false |- _ => apply negb_false_iff in H; rewrite H
       end.
  all: first [ split; reflexivity | do 3 eexists; reflexivity ].
Qed.

Lemma remix_pre_step_witness :
  exists o rest,
    calls (snd (serve scripted Remix blob_request [Normal (VObj [])])) =
      CUpload {| folder := "temp-uploads"; format := None |} (VBuf blob) o :: rest /\
    match o with
    | Throw e =>
        rest = [] /\
        status (fst (serve scripted Remix blob_request [Normal (VObj [])])) = 500%Z
    | Normal parked =>
        if nullish parked then
          rest = [] /\
          status (fst (serve scripted Remix blob_request [Normal (VObj [])])) = 500%Z
        else if truthy (lookup "prompt" (body blob_request)) then
          exists hs o' rest',
            rest = CPost (endpoint Remix)
                     (generation_payload Remix blob_request (prop parked "secure_url"))
                     hs o' :: rest'
        else
          rest = [] /\
          status (fst (serve scripted Remix blob_request [Normal (VObj [])])) = 400%Z
    end.
Proof.
  apply (remix_pre_step script scripted blob_request blob [Normal (VObj [])]);
    reflexivity.
Defined.

(** ** Requests that pass validation *)

(** A request that has its route's required field (for remix: a prompt and,
    there being no file, an [image_url]) is passed on: the first call of its
    run is the generation call, at the route's endpoint, with the payload
    built from the body. *)
Theorem complete_request_reaches_generation (W : Type) (env : clients W)
    (r : route) (req : request) (w : W) :
  truthy (lookup (required_field r) (body req)) = true ->
  (r = Remix ->
   file req = None /\ truthy (lookup "image_url" (body req)) = true) ->
  exists hs o rest,
    calls (snd (serve env r req w)) =
    CPost (endpoint r)
      (generation_payload r req (lookup "image_url" (body req))) hs o :: rest.
Proof.
  intros Hfield Hsource.
  destruct (serve env r req w) as [res st] eqn:Hrun. cbn [snd].
  revert Hrun. destruct r; cbn [required_field] in Hfield; open_handlers.
  - rewrite Hfield. intros Hrun. runs Hrun; do 3 eexists; reflexivity.
  - rewrite Hfield. intros Hrun. runs Hrun; do 3 eexists; reflexivity.
  - destruct (Hsource eq_refl) as [Hfile Hurl].
    rewrite Hfile, Hurl, Hfield. intros Hrun.
    runs Hrun; do 3 eexists; reflexivity.
Qed.

Lemma complete_request_reaches_generation_witness :
  exists hs o rest,
    calls (snd (serve scripted Remix cat_request [])) =
    CPost (endpoint Remix)
      (generation_payload Remix cat_request (lookup "image_url" (body cat_request)))
      hs o :: rest.
Proof.
  apply (complete_request_reaches_generation script scripted Remix cat_request []).
  - reflexivity.
  - intros _. split; reflexivity.
Defined.

(** Without an uploaded file, a request that lacks a required field is
    turned away at once: the answer is 400, no client has been called,
    nothing has been logged and the outside world is as it was. *)
Theorem missing_field_is_rejected_before_any_call (W : Type) (env : clients W)
    (r : route) (req : request) (w : W) :
  (r = Remix -> file req = None) ->
  missing (required_field r) req \/ (r = Remix /\ missing "image_url" req) ->
  status (fst (serve env r req w)) = 400%Z /\
  snd (serve env r req w) = fresh w.
Proof.
  intros Hfile Hmissing.
  destruct r; cbn [required_field] in Hmissing.
  - destruct Hmissing as [Hprompt | [Hr _]]; [| discriminate Hr].
    rewrite (generate_missing_prompt W env req w Hprompt). split; reflexivity.
  - destruct Hmissing as [Hurl | [Hr _]]; [| discriminate Hr].
    rewrite (reframe_missing_image_url W env req w Hurl). split; reflexivity.
  - specialize (Hfile eq_refl).
    destruct (truthy (lookup "image_url" (body req))) eqn:Hurl.
    + destruct Hmissing as [Hprompt | [_ Hnone]].
      * rewrite (remix_url_missing_prompt W env req w Hfile Hurl Hprompt).
        split; reflexivity.
      * unfold missing in Hnone. congruence.
    + rewrite (remix_missing_source W env req w Hfile Hurl). split; reflexivity.
Qed.

Lemma missing_field_is_rejected_before_any_call_witness :
  status (fst (serve scripted Generate
                 {| body := [("prompt", VStr "")]; file := None |} fox_script)) = 400%Z /\
  snd (serve scripted Generate
         {| body := [("prompt", VStr "")]; file := None |} fox_script) = fresh fox_script.
Proof.
  apply (missing_field_is_rejected_before_any_call script scripted Generate
           {| body := [("prompt", VStr "")]; file := None |} fox_script).
  - intros Hr. discriminate Hr.
  - left. reflexivity.
Defined.

(** ** What of a request is read *)

(** The handlers read three fields of the body, [prompt], [aspect_ratio]
    and [image_url], and (remix only) the uploaded file: two requests that
    agree on these are answered alike and cause the same calls, whatever
    else their bodies hold. *)
Theorem only_named_fields_matter (W : Type) (env : clients W)
    (r : route) (req req' : request) (w : W) :
  lookup "prompt" (body req') = lookup "prompt" (body req) ->
  lookup "aspect_ratio" (body req') = lookup "aspect_ratio" (body req) ->
  lookup "image_url" (body req') = lookup "image_url" (body req) ->
  (r = Remix -> file req' = file req) ->
  serve env r req' w = serve env r req w.
Proof.
  intros Hprompt Hratio Hurl Hfile.
  destruct r; unfold serve, handle, generate, reframe, remix, remix_with.
  - rewrite Hprompt, Hratio. reflexivity.
  - rewrite Hurl, Hratio. reflexivity.
  - rewrite (Hfile eq_refl), Hprompt, Hratio, Hurl. reflexivity.
Qed.

Lemma only_named_fields_matter_witness :
  serve scripted Generate
    {| body := [("model", VStr "V_2"); ("prompt", VStr "a red fox");
                ("aspect_ratio", VStr "1:1")];
       file := Some blob |} fox_script
  = serve scripted Generate fox_request fox_script.
Proof.
  apply (only_named_fields_matter script scripted Generate fox_request
           {| body := [("model", VStr "V_2"); ("prompt", VStr "a red fox");
                       ("aspect_ratio", VStr "1:1")];
              file := Some blob |} fox_script).
  - reflexivity.
  - reflexivity.
  - reflexivity.
  - intros Hr. discriminate Hr.
Defined.
